(** * Sklearn-backed classifier adapters of DeepPavlov

    A shallow embedding of
    [deeppavlov/models/classifiers/sklearn_classifiers.py]: the classes
    [LogReg], [Svm] and [RandomForest], each with [__init__], [__call__],
    [fit], [save] and [load].

    The adapters delegate everything to libraries (scikit-learn, scipy,
    numpy, joblib, pathlib, logging) and to the base class [Estimator].
    Those are an interface here, [Platform]; the methods are written
    against it the way the Python source is written against the imports.
    A small executable instance of the interface, [Ref.platform], is
    used to run the methods on concrete inputs. *)

From stdpp Require Import base option list strings gmap.

Local Open Scope string_scope.

(** ** The imported libraries *)

(** The three registered classes. *)
Inductive variant := LogReg | Svm | RandomForest.

#[global] Instance variant_eq_dec : EqDecision variant.
Proof. solve_decision. Defined.

(** [cls.__name__]. *)
Definition class_name (c : variant) : string :=
  match c with
  | LogReg => "LogReg"
  | Svm => "Svm"
  | RandomForest => "RandomForest"
  end.

(** One element of a feature batch [x], classified the way
    [isinstance(x[0], csr_matrix)] and [isinstance(x[0], np.ndarray)]
    see it. *)
Inductive sample_of (C N O : Type) :=
| SCsr (m : C)
| SNd (a : N)
| SOther (o : O).
Arguments SCsr {C N O} m.
Arguments SNd {C N O} a.
Arguments SOther {C N O} o.

(** A stacked matrix: what [scipy.sparse.vstack] or [np.vstack]
    returns, and what [predict] is given. *)
Inductive features_of (S N : Type) :=
| XSparse (m : S)
| XDense (a : N).
Arguments XSparse {S N} m.
Arguments XDense {S N} a.

(** What the source imports.  An operation that can raise inside the
    library returns a [lib_error]; operations on files take the file
    system, and [est_fit] takes the state of the global random
    generator (a random forest draws from it). *)
Class Platform := {
  (* values *)
  csr_matrix : Type;      (* scipy.sparse.csr_matrix *)
  ndarray : Type;         (* numpy.ndarray *)
  pyobject : Type;        (* any other Python value *)
  spmatrix : Type;        (* the matrix scipy.sparse.vstack returns *)
  label : Type;
  predictions : Type;
  estimator : Type;       (* state of a scikit-learn estimator object *)
  path : Type;            (* pathlib.Path *)
  FS : Type;              (* the file system *)
  RNG : Type;             (* numpy's global random state *)
  lib_error : Type;       (* an exception raised inside a library *)
  (* scipy.sparse.vstack, numpy.vstack *)
  sp_vstack : list (sample_of csr_matrix ndarray pyobject) -> lib_error + spmatrix;
  np_vstack : list (sample_of csr_matrix ndarray pyobject) -> lib_error + ndarray;
  (* scikit-learn: the constructors with default arguments, fit, predict *)
  LogisticRegression : estimator;
  LinearSVC : estimator;
  RandomForestClassifier : estimator;
  est_fit : estimator -> features_of spmatrix ndarray -> list label -> RNG ->
            option lib_error * estimator * RNG;
  est_predict : estimator -> features_of spmatrix ndarray -> lib_error + predictions;
  (* pathlib *)
  Path_resolve : string -> FS -> lib_error + path;
  parent : path -> path;
  is_dir : path -> FS -> bool;
  path_exists : path -> FS -> bool;
  path_str : path -> string;
  (* joblib; the pickled value is an estimator or Python's None *)
  joblib_dump : option estimator -> path -> FS -> option lib_error * FS;
  joblib_load : path -> FS -> lib_error + option estimator;
}.

Section Adapter.
Context `{P : Platform}.

Definition sample : Type := sample_of csr_matrix ndarray pyobject.
Definition features : Type := features_of spmatrix ndarray.

(** ** Exceptions, results, the world *)

Inductive exn :=
| ValueError (msg : string)
| NotImplementedError (msg : string)
| ConfigError (msg : string)
| AttributeError (msg : string)
| LibError (e : lib_error).

Inductive result (A : Type) :=
| Ok (a : A)
| Raise (e : exn).
Global Arguments Ok {A} a.
Global Arguments Raise {A} e.

Inductive level := INFO | WARNING.

(** Objects are referred to by their address in [heap]; [self.model] is
    such a reference (or None), so that rebinding [self.model] and
    changing the object it points to are different things. *)
Definition loc := nat.

Record World := mkWorld {
  heap : list estimator;
  fs : FS;
  rng : RNG;
  log : list (level * string);
}.

Definition M (A : Type) : Type := World -> result A * World.

Definition ret {A} (a : A) : M A := fun w => (Ok a, w).
Definition raise {A} (e : exn) : M A := fun w => (Raise e, w).
Definition bind {A B} (m : M A) (k : A -> M B) : M B :=
  fun w =>
    match m w with
    | (Ok a, w') => k a w'
    | (Raise e, w') => (Raise e, w')
    end.

Notation "x <~ m ; k" := (bind m (fun x => k))
  (at level 20, m at level 100, k at level 200, only parsing).
Notation "'exec' m ; k" := (bind m (fun _ => k))
  (at level 20, m at level 100, k at level 200, only parsing).

(** A pure library call that can raise. *)
Definition lift {A} (r : lib_error + A) : M A :=
  match r with
  | inl e => raise (LibError e)
  | inr a => ret a
  end.

(** The world with one more log record, and with one more object. *)
Definition add_log (w : World) (lv : level) (s : string) : World :=
  mkWorld (heap w) (fs w) (rng w) (log w ++ [(lv, s)]).
Definition add_object (w : World) (e : estimator) : World :=
  mkWorld (heap w ++ [e]) (fs w) (rng w) (log w).

Definition log_info (s : string) : M unit :=
  fun w => (Ok tt, add_log w INFO s).
Definition log_warning (s : string) : M unit :=
  fun w => (Ok tt, add_log w WARNING s).

(** A constructor call: a new object at a new address. *)
Definition new_object (e : estimator) : M loc :=
  fun w => (Ok (length (heap w)), add_object w e).

(** The object a reference points to; None is Python's None. *)
Definition deref (h : list estimator) (r : option loc) : option estimator :=
  match r with
  | None => None
  | Some l => h !! l
  end.

(** ** The adapter object *)

(** The attributes [Estimator.__init__] sets. *)
Record base_attrs := mkBase {
  base_save_path : option path;
  base_load_path : option path;
  base_mode : option pyobject;
}.

Record adapter := mkAdapter {
  cls : variant;
  save_path : option path;
  load_path : option path;
  mode : option pyobject;
  model : option loc;
}.

Definition set_model (self : adapter) (m : option loc) : adapter :=
  mkAdapter (cls self) (save_path self) (load_path self) (mode self) m.

(** ** Library calls as commands *)

(** [self.model.fit(X, y)]: scikit-learn updates the estimator object
    in place; the value it returns is dropped by the caller. *)
Definition model_fit (r : option loc) (X : features) (y : list label) : M unit :=
  fun w =>
    match r, deref (heap w) r with
    | Some l, Some e =>
        let '(err, e', g') := est_fit e X y (rng w) in
        (match err with None => Ok tt | Some x => Raise (LibError x) end,
         mkWorld (<[l := e']> (heap w)) (fs w) g' (log w))
    | _, _ => (Raise (AttributeError "'NoneType' object has no attribute 'fit'"), w)
    end.

(** [v.predict(q_vect)] for the value [v] that [self.model] holds. *)
Definition predict_value (v : option estimator) (q : features) : result predictions :=
  match v with
  | Some e =>
      match est_predict e q with
      | inl x => Raise (LibError x)
      | inr a => Ok a
      end
  | None => Raise (AttributeError "'NoneType' object has no attribute 'predict'")
  end.

(** [self.model.predict(q_vect)]. *)
Definition model_predict (r : option loc) (q : features) : M predictions :=
  fun w => (predict_value (deref (heap w) r) q, w).

Definition Path_resolve_m (s : string) : M path :=
  fun w => lift (Path_resolve s (fs w)) w.
Definition is_dir_m (p : path) : M bool :=
  fun w => (Ok (is_dir p (fs w)), w).
Definition exists_m (p : path) : M bool :=
  fun w => (Ok (path_exists p (fs w)), w).

(** [joblib.dump(self.model, fname)]. *)
Definition joblib_dump_m (r : option loc) (p : path) : M unit :=
  fun w =>
    let '(err, f') := joblib_dump (deref (heap w) r) p (fs w) in
    (match err with None => Ok tt | Some x => Raise (LibError x) end,
     mkWorld (heap w) f' (rng w) (log w)).

(** [joblib.load(self.load_path)]: the unpickled value is a new object. *)
Definition joblib_load_m (p : path) : M (option loc) :=
  fun w =>
    match joblib_load p (fs w) with
    | inl x => (Raise (LibError x), w)
    | inr None => (Ok None, w)
    | inr (Some e) => (l <~ new_object e ; ret (Some l)) w
    end.

(** The scikit-learn class each adapter instantiates in [load]. *)
Definition default_estimator (c : variant) : estimator :=
  match c with
  | LogReg => LogisticRegression
  | Svm => LinearSVC
  | RandomForest => RandomForestClassifier
  end.

(** The name each [load] prints in "initializing `{}` from scratch". *)
Definition scratch_name (c : variant) : string :=
  match c with
  | LogReg => "LogisticRegression"
  | Svm => "SVC"
  | RandomForest => "RandomForestClassifier"
  end.

(** ** The methods *)

(** [fit(self, x, y, weights=None, **kwargs)]; the three classes have
    the same body. *)
Definition fit (self : adapter) (x : list sample) (y : list label)
    (weights : option pyobject) (kwargs : gmap string pyobject) : M adapter :=
  x_train_features <~
    match x with
    | x0 :: _ =>                               (* len(x) != 0 *)
        match x0 with
        | SCsr _ =>                            (* isinstance(x[0], csr_matrix) *)
            m <~ lift (sp_vstack x) ; ret (XSparse m : features)
        | SNd _ =>                             (* isinstance(x[0], np.ndarray) *)
            a <~ lift (np_vstack x) ; ret (XDense a : features)
        | SOther _ =>
            raise (NotImplementedError "Not implemented this type of vectors")
        end
    | [] => raise (ValueError "Train vectors can't be empty")
    end ;
  exec model_fit (model self) x_train_features y ;
  ret self.

(** [not fname] for [fname: str = None]. *)
Definition falsy (fname : option string) : bool :=
  match fname with
  | None => true
  | Some s => bool_decide (s = EmptyString)
  end.

(** [save(self, fname=None)]; the three classes have the same body.
    After the first [if], [fname] is a path, or None when it was taken
    from an unset [self.save_path]. *)
Definition save (self : adapter) (fname : option string) : M unit :=
  fname' <~
    (if falsy fname then ret (save_path self)
     else p <~ Path_resolve_m (default EmptyString fname) ; ret (Some p)) ;
  match fname' with
  | None => raise (AttributeError "'NoneType' object has no attribute 'parent'")
  | Some p =>
      d <~ is_dir_m (parent p) ;
      if negb d then raise (ConfigError "Provided save path is incorrect!")
      else
        exec log_info ("[saving model to " +:+ path_str p +:+ "]") ;
        joblib_dump_m (model self) p
  end.

(** [load(self)]; the three classes differ in the estimator they
    construct and in the name they print. *)
Definition load (self : adapter) : M adapter :=
  match load_path self with
  | Some p =>
      e <~ exists_m p ;
      if e then
        exec log_info ("[initializing `" +:+ class_name (cls self) +:+ "` from saved]") ;
        m <~ joblib_load_m p ;
        ret (set_model self m)
      else
        exec log_warning ("initializing `" +:+ scratch_name (cls self) +:+ "` from scratch") ;
        m <~ new_object (default_estimator (cls self)) ;
        ret (set_model self (Some m))
  | None =>
      exec log_warning ("No `load_path` is provided for " +:+ class_name (cls self)) ;
      m <~ new_object (default_estimator (cls self)) ;
      ret (set_model self (Some m))
  end.

(** [__call__(self, q_vect)]. *)
Definition call (self : adapter) (q_vect : features) : M predictions :=
  answers <~ model_predict (model self) q_vect ;
  ret answers.

(** [__init__(self, **kwargs)], given what [super().__init__] does.
    [kwargs.get(k, None)] is the lookup [kwargs !! k]. *)
Definition init (Estimator_init : option pyobject -> option pyobject ->
                                  option pyobject -> M base_attrs)
    (c : variant) (kwargs : gmap string pyobject) : M adapter :=
  let save_path := kwargs !! "save_path" in
  let load_path := kwargs !! "load_path" in
  let mode := kwargs !! "mode" in
  b <~ Estimator_init save_path load_path mode ;
  let self := mkAdapter c (base_save_path b) (base_load_path b) (base_mode b) None in
  load self.

End Adapter.

(** ** Notions the properties are stated with *)

Section Notions.
Context `{P : Platform}.

(** The path [save] checks and writes: [self.save_path] when [fname] is
    falsy (None then, if it is unset), else [Path(fname).resolve()]. *)
Definition save_target (self : adapter) (fname : option string) (f : FS)
    : option (lib_error + path) :=
  if falsy fname then inr <$> save_path self
  else Some (Path_resolve (default EmptyString fname) f).

(** Every object that was there is still there, with the same state. *)
Definition objects_preserved (w w' : World) : Prop :=
  forall (l : loc) (e : estimator), heap w !! l = Some e -> heap w' !! l = Some e.

(** Two pickled values that [predict] cannot tell apart. *)
Definition same_predictions (v v' : option estimator) : Prop :=
  forall q : features, predict_value v q = predict_value v' q.

(** What is assumed of joblib for the round trip: a [dump] that returns
    leaves a file that [load] unpickles to a value behaving the same. *)
Class JoblibRoundTrip : Prop := {
  dump_exists : forall v p f f',
    joblib_dump v p f = (None, f') -> path_exists p f' = true;
  dump_load : forall v p f f',
    joblib_dump v p f = (None, f') ->
    exists v', joblib_load p f' = inr v' /\ same_predictions v v';
}.

(** [self.model] is None or refers to an object of the heap. *)
Definition handle_valid (self : adapter) (w : World) : Prop :=
  forall l : loc, model self = Some l -> is_Some (heap w !! l).

(** [X] is what the stacking step of [fit] makes of the batch [x]. *)
Definition stacked (x : list sample) (X : features) : Prop :=
  match x with
  | SCsr _ :: _ => exists Xs, sp_vstack x = inr Xs /\ X = XSparse Xs
  | SNd _ :: _ => exists Xd, np_vstack x = inr Xd /\ X = XDense Xd
  | _ => False
  end.

(** The artifact at [p] is in [f'] what it was in [f]. *)
Definition artifact_kept (p : path) (f f' : FS) : Prop :=
  path_exists p f' = path_exists p f /\ joblib_load p f' = joblib_load p f.

End Notions.

(** ** A reference platform

    A small executable instance of [Platform], to run the methods on
    concrete inputs: matrices are lists of rows, an estimator remembers
    its training rows, the file system lists absolute paths with the
    directory or pickled file at each. *)
Module Ref.

Definition row := list Z.

Record est := mkEst {
  algo : variant;
  trained : option (list (row * Z));
}.

Inductive node :=
| Dir
| File (pickled : option est).

#[global] Instance est_eq_dec : EqDecision est.
Proof. solve_decision. Defined.
#[global] Instance node_eq_dec : EqDecision node.
Proof. solve_decision. Defined.

(** Rows of a batch whose samples are all of one class. *)
Fixpoint csr_rows (xs : list (sample_of (list row) (list row) string))
    : option (list row) :=
  match xs with
  | [] => Some []
  | SCsr m :: r => (fun t => (m ++ t)%list) <$> csr_rows r
  | _ :: _ => None
  end.

Fixpoint nd_rows (xs : list (sample_of (list row) (list row) string))
    : option (list row) :=
  match xs with
  | [] => Some []
  | SNd a :: r => (fun t => (a ++ t)%list) <$> nd_rows r
  | _ :: _ => None
  end.

Definition stack (rows : option (list row)) : string + list row :=
  match rows with
  | Some t => inr t
  | None => inl "ValueError: blocks of different kinds"
  end.

Definition rows_of (X : features_of (list row) (list row)) : list row :=
  match X with
  | XSparse m => m
  | XDense a => a
  end.

(** Fitting remembers the rows with their labels; a random forest also
    draws from the generator. *)
Definition ref_fit (e : est) (X : features_of (list row) (list row))
    (y : list Z) (g : nat) : option string * est * nat :=
  if bool_decide (length (rows_of X) = length y) then
    (None, mkEst (algo e) (Some (zip (rows_of X) y)),
     match algo e with RandomForest => S g | _ => g end)
  else (Some "ValueError: inconsistent numbers of samples", e, g).

Fixpoint recall (t : list (row * Z)) (r : row) : Z :=
  match t with
  | [] => 0%Z
  | (r', c) :: t' => if bool_decide (r' = r) then c else recall t' r
  end.

Definition ref_predict (e : est) (q : features_of (list row) (list row))
    : string + list Z :=
  match trained e with
  | Some t => inr (recall t <$> rows_of q)
  | None => inl "NotFittedError"
  end.

(** Paths are the lists of their components under the root; a name is
    resolved in the working directory [/work].  The file system lists
    its entries, the latest written first; the root is always there. *)
Definition tree : Type := list (list string * node).

Fixpoint entry (p : list string) (f : tree) : option node :=
  match f with
  | [] => None
  | (q, n) :: f' => if bool_decide (q = p) then Some n else entry p f'
  end.

Definition ref_resolve (s : string) (f : tree) : string + list string :=
  inr ["work"; s].

Definition ref_str (p : list string) : string :=
  foldr (fun c s => "/" +:+ c +:+ s) EmptyString p.

Definition ref_is_dir (p : list string) (f : tree) : bool :=
  match entry p f with
  | Some Dir => true
  | Some (File _) => false
  | None => bool_decide (p = [])
  end.

Definition ref_exists (p : list string) (f : tree) : bool :=
  match entry p f with
  | Some _ => true
  | None => bool_decide (p = [])
  end.

Definition ref_dump (v : option est) (p : list string) (f : tree)
    : option string * tree :=
  if ref_is_dir p f then (Some "IsADirectoryError", f)
  else (None, (p, File v) :: f).

Definition ref_load (p : list string) (f : tree) : string + option est :=
  match entry p f with
  | Some (File v) => inr v
  | _ => inl "OSError: not a pickled file"
  end.

#[global] Instance platform : Platform := {|
  csr_matrix := list row;
  ndarray := list row;
  pyobject := string;
  spmatrix := list row;
  label := Z;
  predictions := list Z;
  estimator := est;
  path := list string;
  FS := tree;
  RNG := nat;
  lib_error := string;
  sp_vstack xs := stack (csr_rows xs);
  np_vstack xs := stack (nd_rows xs);
  LogisticRegression := mkEst LogReg None;
  LinearSVC := mkEst Svm None;
  RandomForestClassifier := mkEst RandomForest None;
  est_fit := ref_fit;
  est_predict := ref_predict;
  Path_resolve := ref_resolve;
  parent := @removelast string;
  is_dir := ref_is_dir;
  path_exists := ref_exists;
  path_str := ref_str;
  joblib_dump := ref_dump;
  joblib_load := ref_load;
|}.

(** Modelled from the spec: [Estimator.__init__], the constructor of the
    base class, which is not in this file.  The spec has it supply
    [save_path], [load_path] and the mode to the adapter; here it stores
    them as given, a path argument being a name in [/work]. *)
Definition Estimator_init (save_path load_path mode : option string)
    : M base_attrs :=
  ret (mkBase ((fun s => ["work"; s]) <$> save_path)
              ((fun s => ["work"; s]) <$> load_path) mode).

(** A run: in a world with the directory [/work], a LogReg adapter is
    constructed with no paths ([world1]), fitted on four samples of two
    features ([world2]) and saved as [model.pkl] ([world3]). *)
Definition work_dir : tree := [(["work"], Dir)].

Definition world0 : World := mkWorld [] work_dir 0 [].

Definition adapter0 : adapter := mkAdapter LogReg None None None (Some 0).

Definition no_path_warning : level * string :=
  (WARNING, "No `load_path` is provided for LogReg").

Definition world1 : World :=
  mkWorld [mkEst LogReg None] work_dir 0 [no_path_warning].

Definition batch : list sample :=
  [SNd [[1; 0]]; SNd [[0; 1]]; SNd [[1; 1]]; SNd [[0; 0]]]%Z.

Definition labels : list Z := [0; 1; 0; 1]%Z.

Definition fitted : est :=
  mkEst LogReg (Some [([1; 0], 0); ([0; 1], 1); ([1; 1], 0); ([0; 0], 1)]%Z).

Definition world2 : World :=
  mkWorld [fitted] work_dir 0 [no_path_warning].

Definition world3 : World :=
  mkWorld [fitted] ((["work"; "model.pkl"], File (Some fitted)) :: work_dir) 0
    [no_path_warning; (INFO, "[saving model to /work/model.pkl]")].

(** An adapter whose [save_path] lies in a directory that is not there. *)
Definition adapter_astray : adapter :=
  mkAdapter Svm (Some ["nowhere"; "model.pkl"]) (Some ["nowhere"; "model.pkl"])
    None (Some 0).

(** A new adapter that is to load from [/work/model.pkl]. *)
Definition adapter_loading : adapter :=
  mkAdapter RandomForest None (Some ["work"; "model.pkl"]) None None.

(** A batch whose samples are not of one kind; a second batch, and the
    world after the fitted adapter is fitted on it. *)
Definition mixed_batch : list sample := [SNd [[1; 0]]; SCsr [[0; 1]]]%Z.
Definition batch' : list sample := [SCsr [[1; 1]]]%Z.
Definition labels' : list Z := [1]%Z.

End Ref.

(** * Properties *)

Section Properties.
Context `{P : Platform}.

(** ** The monad *)

Lemma bind_ok {A B} (m : M A) (k : A -> M B) (w w' : World) (a : A) :
  m w = (Ok a, w') -> bind m k w = k a w'.
Proof. intros H. unfold bind. now rewrite H. Qed.

Lemma bind_raise {A B} (m : M A) (k : A -> M B) (w w' : World) (e : exn) :
  m w = (Raise e, w') -> bind m k w = (Raise e, w').
Proof. intros H. unfold bind. now rewrite H. Qed.

Lemma bind_ret {A B} (a : A) (k : A -> M B) (w : World) :
  bind (ret a) k w = k a w.
Proof. reflexivity. Qed.

(** ** fit *)

(** C1. For each of the three classes (the class of [self] is any of
    them), [fit] on an empty feature batch raises ValueError, whatever
    the labels, the weights and the keyword arguments; nothing has been
    changed when it does. *)
Theorem fit_empty_batch (self : adapter) (y : list label)
    (weights : option pyobject) (kwargs : gmap string pyobject) (w : World) :
  fit self [] y weights kwargs w
  = (Raise (ValueError "Train vectors can't be empty"), w).
Proof. reflexivity. Qed.

(** C2. For each of the three classes, [fit] on a batch whose first
    element is neither a csr_matrix nor an ndarray raises
    NotImplementedError, whatever the other elements are; nothing has
    been changed when it does. *)
Theorem fit_unsupported_first (self : adapter) (o : pyobject)
    (rest : list sample) (y : list label) (weights : option pyobject)
    (kwargs : gmap string pyobject) (w : World) :
  fit self (SOther o :: rest) y weights kwargs w
  = (Raise (NotImplementedError "Not implemented this type of vectors"), w).
Proof. reflexivity. Qed.

(** What [fit] does once the batch is stacked. *)
Lemma fit_after_stack (self : adapter) (X : features) (y : list label)
    (w : World) (l : loc) (e e' : estimator) (g' : RNG) :
  model self = Some l ->
  heap w !! l = Some e ->
  est_fit e X y (rng w) = (None, e', g') ->
  bind (model_fit (model self) X y) (fun _ => ret self) w
  = (Ok self, mkWorld (<[l := e']> (heap w)) (fs w) g' (log w)).
Proof.
  intros Hm Hl Hfit. unfold bind, model_fit.
  rewrite Hm. simpl. rewrite Hl, Hfit. reflexivity.
Qed.

(** C3. On a batch [x0 :: rest], only the class of [x0] chooses how
    the batch is combined: the whole batch goes to scipy's vstack when
    [x0] is a csr_matrix, to numpy's when it is an ndarray.  When the
    library calls return, the model object is fitted on the combined
    matrix [X] and all the labels [y], [fit] returns [self], and the
    world differs only in that object (and in the random generator the
    library's fit went through): files and log are as before. *)
Theorem fit_stacks_by_first_sample (self : adapter) (x0 : sample)
    (rest : list sample) (y : list label) (weights : option pyobject)
    (kwargs : gmap string pyobject) (w : World) (X : features)
    (l : loc) (e e' : estimator) (g' : RNG) :
  (exists m Xs, x0 = SCsr m /\ sp_vstack (x0 :: rest) = inr Xs /\ X = XSparse Xs) \/
  (exists a Xd, x0 = SNd a /\ np_vstack (x0 :: rest) = inr Xd /\ X = XDense Xd) ->
  model self = Some l ->
  heap w !! l = Some e ->
  est_fit e X y (rng w) = (None, e', g') ->
  fit self (x0 :: rest) y weights kwargs w
  = (Ok self, mkWorld (<[l := e']> (heap w)) (fs w) g' (log w)).
Proof.
  intros Hstack Hm Hl Hfit. unfold fit.
  destruct Hstack as [(m & Xs & -> & Hs & ->) | (a & Xd & -> & Hs & ->)].
  - rewrite <- (fit_after_stack self (XSparse Xs) y w l e e' g' Hm Hl Hfit).
    unfold bind at 1 2. unfold lift. now rewrite Hs.
  - rewrite <- (fit_after_stack self (XDense Xd) y w l e e' g' Hm Hl Hfit).
    unfold bind at 1 2. unfold lift. now rewrite Hs.
Qed.

(** C8. [fit] does not look at [weights]: with any two weight
    arguments, and everything else the same, it returns the same value
    and leaves the same world. *)
Theorem fit_ignores_weights (self : adapter) (x : list sample)
    (y : list label) (w1 w2 : option pyobject)
    (kwargs : gmap string pyobject) (w : World) :
  fit self x y w1 kwargs w = fit self x y w2 kwargs w.
Proof. reflexivity. Qed.

(** ** save *)

Lemma save_on_target (self : adapter) (fname : option string) (w : World)
    (p : path) :
  save_target self fname (fs w) = Some (inr p) ->
  save self fname w =
    bind (is_dir_m (parent p))
      (fun d =>
         if negb d then raise (ConfigError "Provided save path is incorrect!")
         else bind (log_info ("[saving model to " +:+ path_str p +:+ "]"))
                (fun _ => joblib_dump_m (model self) p)) w.
Proof.
  unfold save_target, save. destruct (falsy fname); intros H.
  - destruct (save_path self) as [q |]; simplify_eq/=. reflexivity.
  - simplify_eq/=. unfold bind at 1. unfold bind at 1.
    unfold Path_resolve_m, lift. rewrite H. reflexivity.
Qed.

(** C4. When the directory above the target path (the resolved
    [fname], or [self.save_path] when [fname] is falsy) is not a
    directory, [save] raises ConfigError and the world, files and model
    objects included, is what it was: nothing has been written or
    logged. *)
Theorem save_missing_parent (self : adapter) (fname : option string)
    (w : World) (p : path) :
  save_target self fname (fs w) = Some (inr p) ->
  is_dir (parent p) (fs w) = false ->
  save self fname w = (Raise (ConfigError "Provided save path is incorrect!"), w).
Proof.
  intros Ht Hd. rewrite (save_on_target _ _ _ _ Ht).
  unfold bind, is_dir_m. now rewrite Hd.
Qed.

(** C10. With a falsy [fname] (None or the empty string) and no
    [save_path] on the adapter, [save] raises AttributeError, from
    [fname.parent] on None, and not ConfigError; the world is what it
    was. *)
Theorem save_without_any_path (self : adapter) (fname : option string)
    (w : World) :
  falsy fname = true ->
  save_path self = None ->
  save self fname w
  = (Raise (AttributeError "'NoneType' object has no attribute 'parent'"), w).
Proof.
  intros Hf Hs. unfold save. rewrite Hf, Hs. reflexivity.
Qed.

(** ** load *)

(** C5. [load] by cases.  With no [load_path], and with a [load_path]
    at which nothing exists, it does not raise: it logs a warning and
    binds [self.model] to a newly constructed default estimator of the
    class's algorithm.  Only with a [load_path] at which something
    exists does it call joblib: the unpickled value becomes
    [self.model] (an exception of joblib would pass through). *)
Theorem load_cases (self : adapter) (w : World) :
  (load_path self = None ->
   load self w =
     (Ok (set_model self (Some (length (heap w)))),
      add_object
        (add_log w WARNING
           ("No `load_path` is provided for " +:+ class_name (cls self)))
        (default_estimator (cls self)))) /\
  (forall p : path,
   load_path self = Some p -> path_exists p (fs w) = false ->
   load self w =
     (Ok (set_model self (Some (length (heap w)))),
      add_object
        (add_log w WARNING
           ("initializing `" +:+ scratch_name (cls self) +:+ "` from scratch"))
        (default_estimator (cls self)))) /\
  (forall p : path,
   load_path self = Some p -> path_exists p (fs w) = true ->
   let w1 := add_log w INFO
               ("[initializing `" +:+ class_name (cls self) +:+ "` from saved]") in
   load self w =
     match joblib_load p (fs w) with
     | inr (Some e) => (Ok (set_model self (Some (length (heap w)))), add_object w1 e)
     | inr None => (Ok (set_model self None), w1)
     | inl x => (Raise (LibError x), w1)
     end).
Proof.
  unfold load. repeat split.
  - intros ->. reflexivity.
  - intros p -> Hex. unfold bind at 1. unfold exists_m. rewrite Hex. reflexivity.
  - intros p -> Hex. unfold bind at 1. unfold exists_m. rewrite Hex.
    unfold bind, log_info, joblib_load_m. simpl.
    destruct (joblib_load p (fs w)) as [x | [e |]]; reflexivity.
Qed.

(** ** __init__ *)


(** ** __call__ *)

(** [__call__] hands [q_vect] to the model's [predict] and returns what
    it returns; the world is not touched. *)
Lemma call_spec (self : adapter) (q : features) (w : World) :
  call self q w = (predict_value (deref (heap w) (model self)) q, w).
Proof.
  unfold call, bind, model_predict.
  now destruct (predict_value (deref (heap w) (model self)) q).
Qed.

(** ** save, then load *)

(** A [save] that returns has found the directory and has had joblib
    write the value of [self.model] at the target. *)
Lemma save_ok_inv (self : adapter) (fname : option string) (w w1 : World)
    (p : path) :
  save_target self fname (fs w) = Some (inr p) ->
  save self fname w = (Ok tt, w1) ->
  exists f' : FS,
    joblib_dump (deref (heap w) (model self)) p (fs w) = (None, f') /\
    heap w1 = heap w /\ fs w1 = f'.
Proof.
  intros Ht. rewrite (save_on_target _ _ _ _ Ht).
  unfold bind, is_dir_m, log_info, joblib_dump_m. simpl.
  destruct (is_dir (parent p) (fs w)); simpl; [| discriminate].
  destruct (joblib_dump _ p (fs w)) as [[x |] f']; [discriminate |].
  intros [= <-]. now exists f'.
Qed.

(** C7. Round trip.  Let [save] return, having written at [p]; let a
    new adapter then be constructed whose base class sets [load_path]
    to [p] and leaves the artifact at [p] as it is.  With a joblib whose
    [load] gives back a value that predicts as the dumped one,
    construction completes and, on every feature batch, the new
    adapter's [__call__] returns what the saved adapter's [__call__]
    returned before the save. *)
Theorem save_then_construct_round_trip `{!JoblibRoundTrip}
    (Estimator_init : option pyobject -> option pyobject -> option pyobject ->
                      M base_attrs)
    (self : adapter) (fname : option string) (w w1 w2 : World) (p : path)
    (c : variant) (kwargs : gmap string pyobject) (b : base_attrs) :
  save_target self fname (fs w) = Some (inr p) ->
  save self fname w = (Ok tt, w1) ->
  Estimator_init (kwargs !! "save_path") (kwargs !! "load_path")
    (kwargs !! "mode") w1 = (Ok b, w2) ->
  base_load_path b = Some p ->
  artifact_kept p (fs w1) (fs w2) ->
  exists (self' : adapter) (w3 : World),
    init Estimator_init c kwargs w1 = (Ok self', w3) /\
    forall q : features, (call self' q w3).1 = (call self q w).1.
Proof.
  intros Ht Hsave Hb Hl [Hex Hload].
  destruct (save_ok_inv _ _ _ _ _ Ht Hsave) as (f' & Hdump & _ & Hfs).
  rewrite Hfs in Hex, Hload.
  rewrite (dump_exists _ _ _ _ Hdump) in Hex.
  destruct (dump_load _ _ _ _ Hdump) as (v' & Hv' & Hsame).
  rewrite Hv' in Hload.
  unfold init. rewrite (bind_ok _ _ _ _ _ Hb).
  destruct (load_cases (mkAdapter c (base_save_path b) (base_load_path b)
                          (base_mode b) None) w2) as (_ & _ & Hcase).
  rewrite (Hcase p Hl Hex). simpl. rewrite Hload.
  destruct v' as [e |]; eexists _, _; (split; [reflexivity |]);
    intros q; rewrite !call_spec; simpl; rewrite Hsame; [| reflexivity].
  rewrite lookup_app_r by (simpl; lia). simpl. now rewrite Nat.sub_diag.
Qed.

(** ** Which operations touch the model object *)

Lemma objects_preserved_add (w w' : World) (e : estimator) :
  heap w' = heap w -> objects_preserved w (add_object w' e).
Proof.
  intros Hh l e0 Hl. simpl. rewrite Hh. now apply lookup_app_l_Some.
Qed.

Lemma load_new_object (self : adapter) (w w' : World) (r : result adapter) :
  load self w = (r, w') ->
  objects_preserved w w' /\
  forall (self' : adapter) (l : loc),
    r = Ok self' -> model self' = Some l ->
    heap w !! l = None /\ is_Some (heap w' !! l).
Proof.
  assert (Hfresh : forall (w0 : World) (e : estimator) (l : loc),
             heap w0 = heap w -> Some (length (heap w)) = Some l ->
             heap w !! l = None /\ is_Some (heap (add_object w0 e) !! l)).
  { intros w0 e l Hh [= <-]. split.
    - apply lookup_ge_None_2. lia.
    - simpl. rewrite Hh, lookup_app_r by lia. rewrite Nat.sub_diag. now eexists. }
  destruct (load_cases self w) as (Hnone & Hmiss & Hfile).
  destruct (load_path self) as [p |] eqn:Hp.
  - destruct (path_exists p (fs w)) eqn:Hex.
    + rewrite (Hfile p eq_refl Hex). simpl.
      destruct (joblib_load p (fs w)) as [x | [e |]]; intros [= <- <-]; split;
        try (now apply objects_preserved_add); try (now intros l e Hl);
        intros self' l [= <-]; simpl; try discriminate.
      now apply Hfresh.
    + rewrite (Hmiss p eq_refl Hex). intros [= <- <-]. split.
      * now apply objects_preserved_add.
      * intros self' l [= <-]. simpl. now apply Hfresh.
  - rewrite (Hnone eq_refl). intros [= <- <-]. split.
    + now apply objects_preserved_add.
    + intros self' l [= <-]. simpl. now apply Hfresh.
Qed.

Lemma fit_same_handle (self : adapter) (x : list sample) (y : list label)
    (weights : option pyobject) (kwargs : gmap string pyobject)
    (w w' : World) (r : result adapter) :
  fit self x y weights kwargs w = (r, w') ->
  (forall self' : adapter, r = Ok self' -> self' = self) /\
  (forall l : loc, model self <> Some l -> heap w' !! l = heap w !! l).
Proof.
  assert (Hfit : forall X : features,
             bind (model_fit (model self) X y) (fun _ => ret self) w = (r, w') ->
             (forall self' : adapter, r = Ok self' -> self' = self) /\
             (forall l : loc, model self <> Some l -> heap w' !! l = heap w !! l)).
  { intros X. unfold bind, model_fit.
    destruct (model self) as [l0 |]; simpl.
    - destruct (heap w !! l0) as [e |].
      + destruct (est_fit e X y (rng w)) as [[[x' |] e'] g'];
          intros [= <- <-]; (split; [congruence |]); intros l Hne; simpl;
          apply list_lookup_insert_ne; congruence.
      + intros [= <- <-]. now split.
    - intros [= <- <-]. now split. }
  unfold fit. destruct x as [| [m | a | o] rest].
  - intros [= <- <-]. now split.
  - unfold bind at 1 2. unfold lift.
    destruct (sp_vstack _) as [x' | Xs];
      unfold raise, ret; cbv beta iota zeta.
    + intros [= <- <-]. now split.
    + apply Hfit.
  - unfold bind at 1 2. unfold lift.
    destruct (np_vstack _) as [x' | Xd];
      unfold raise, ret; cbv beta iota zeta.
    + intros [= <- <-]. now split.
    + apply Hfit.
  - intros [= <- <-]. now split.
Qed.

Lemma save_keeps_objects (self : adapter) (fname : option string)
    (w w' : World) (r : result unit) :
  save self fname w = (r, w') -> heap w' = heap w.
Proof.
  unfold save, bind.
  destruct (falsy fname).
  - simpl. destruct (save_path self) as [p |]; [| now intros [= <- <-]].
    unfold is_dir_m, log_info, joblib_dump_m. simpl.
    destruct (is_dir (parent p) (fs w)); simpl; [| now intros [= <- <-]].
    destruct (joblib_dump _ p (fs w)) as [[x |] f']; now intros [= <- <-].
  - unfold Path_resolve_m, lift.
    destruct (Path_resolve (default EmptyString fname) (fs w)) as [x | p]; simpl;
      [now intros [= <- <-] |].
    unfold is_dir_m, log_info, joblib_dump_m. simpl.
    destruct (is_dir (parent p) (fs w)); simpl; [| now intros [= <- <-]].
    destruct (joblib_dump _ p (fs w)) as [[x |] f']; now intros [= <- <-].
Qed.

(** C9, as the code has it.  [load] binds [self.model] to an object
    that did not exist before and leaves every existing object as it
    was.  [fit] does not rebind [self.model]: it returns [self]
    unchanged, and the only object whose state it can change is the one
    [self.model] refers to, which the library's fit updates in place.
    [save] and [__call__] change no object (and cannot rebind
    [self.model]). *)
Theorem model_handle_discipline :
  (forall (self : adapter) (w w' : World) (r : result adapter),
     load self w = (r, w') ->
     objects_preserved w w' /\
     forall (self' : adapter) (l : loc),
       r = Ok self' -> model self' = Some l ->
       heap w !! l = None /\ is_Some (heap w' !! l)) /\
  (forall (self : adapter) (x : list sample) (y : list label)
          (weights : option pyobject) (kwargs : gmap string pyobject)
          (w w' : World) (r : result adapter),
     fit self x y weights kwargs w = (r, w') ->
     (forall self' : adapter, r = Ok self' -> self' = self) /\
     (forall l : loc, model self <> Some l -> heap w' !! l = heap w !! l)) /\
  (forall (self : adapter) (fname : option string) (w w' : World)
          (r : result unit),
     save self fname w = (r, w') -> heap w' = heap w) /\
  (forall (self : adapter) (q : features) (w w' : World)
          (r : result predictions),
     call self q w = (r, w') -> heap w' = heap w).
Proof.
  split; [| split; [| split]].
  - intros self w w' r Hload. now apply (load_new_object self w w' r).
  - intros self x y weights kwargs w w' r Hfit.
    now apply (fit_same_handle self x y weights kwargs w w' r).
  - intros self fname w w' r Hsave.
    now apply (save_keeps_objects self fname w w' r).
  - intros self q w w' r Hcall. rewrite call_spec in Hcall. now simplify_eq.
Qed.

End Properties.

(** * How the methods compose *)

Section Composition.
Context `{P : Platform}.

Lemma bind_inv_ok {A B} (m : M A) (k : A -> M B) (w w2 : World) (b : B) :
  bind m k w = (Ok b, w2) ->
  exists a w1, m w = (Ok a, w1) /\ k a w1 = (Ok b, w2).
Proof.
  unfold bind. destruct (m w) as [[a | e] w1]; intros H.
  - now exists a, w1.
  - discriminate.
Qed.

(** ** Every way [fit] can end *)

Lemma fit_inv (self : adapter) (x : list sample) (y : list label)
    (weights : option pyobject) (kwargs : gmap string pyobject)
    (w w' : World) (r : result adapter) :
  fit self x y weights kwargs w = (r, w') ->
  (w' = w /\ exists e, r = Raise e) \/
  (exists (l : loc) (e0 : estimator) (X : features) (err : option lib_error)
          (e' : estimator) (g' : RNG),
     stacked x X /\ model self = Some l /\ heap w !! l = Some e0 /\
     est_fit e0 X y (rng w) = (err, e', g') /\
     w' = mkWorld (<[l := e']> (heap w)) (fs w) g' (log w) /\
     r = match err with None => Ok self | Some x' => Raise (LibError x') end).
Proof.
  assert (Hfit : forall X : features, stacked x X ->
             bind (model_fit (model self) X y) (fun _ => ret self) w = (r, w') ->
             (w' = w /\ exists e, r = Raise e) \/
             (exists l e0 X err e' g',
                stacked x X /\ model self = Some l /\ heap w !! l = Some e0 /\
                est_fit e0 X y (rng w) = (err, e', g') /\
                w' = mkWorld (<[l := e']> (heap w)) (fs w) g' (log w) /\
                r = match err with None => Ok self | Some x' => Raise (LibError x') end)).
  { intros X HX. unfold bind, model_fit.
    destruct (model self) as [l0 |]; simpl.
    - destruct (heap w !! l0) as [e |] eqn:Hl.
      + destruct (est_fit e X y (rng w)) as [[err e'] g'] eqn:Hest.
        intros Hr. right. exists l0, e, X, err, e', g'.
        destruct err; unfold ret in Hr; simpl in Hr; injection Hr as <- <-;
          auto 10.
      + intros [= <- <-]. left. eauto.
    - intros [= <- <-]. left. eauto. }
  unfold fit. destruct x as [| [m | a | o] rest].
  - intros [= <- <-]. left. eauto.
  - unfold bind at 1 2. unfold lift.
    destruct (sp_vstack _) as [x' | Xs] eqn:Hs;
      unfold raise, ret; cbv beta iota zeta.
    + intros [= <- <-]. left. eauto.
    + apply Hfit. simpl. eauto.
  - unfold bind at 1 2. unfold lift.
    destruct (np_vstack _) as [x' | Xd] eqn:Hs;
      unfold raise, ret; cbv beta iota zeta.
    + intros [= <- <-]. left. eauto.
    + apply Hfit. simpl. eauto.
  - intros [= <- <-]. left. eauto.
Qed.

(** X1. After a [fit] that returns, [__call__] predicts with the model
    object as the library's fit left it: [fit] returned because the
    handle referred to an estimator, the batch was stacked and the
    library's fit of that estimator raised nothing; every later
    [__call__] returns that fitted estimator's predictions and changes
    nothing. *)
Theorem fit_then_call_predicts (self self' : adapter) (x : list sample)
    (y : list label) (weights : option pyobject)
    (kwargs : gmap string pyobject) (w w' : World) :
  fit self x y weights kwargs w = (Ok self', w') ->
  exists (l : loc) (e : estimator) (X : features) (e' : estimator) (g' : RNG),
    model self = Some l /\ heap w !! l = Some e /\ stacked x X /\
    est_fit e X y (rng w) = (None, e', g') /\
    forall q : features, call self' q w' = (predict_value (Some e') q, w').
Proof.
  intros Hfit.
  destruct (fit_inv _ _ _ _ _ _ _ _ Hfit)
    as [(_ & e & He) | (l & e0 & X & err & e' & g' & HX & Hm & Hl & Hest & -> & Hr)];
    [discriminate |].
  destruct err as [x' |]; [discriminate |]. injection Hr as <-.
  exists l, e0, X, e', g'. repeat (split; [assumption |]).
  intros q. rewrite call_spec, Hm. simpl.
  rewrite list_lookup_insert_eq; [reflexivity |].
  now apply lookup_lt_Some with e0.
Qed.

(** X2. When [fit] raises, nothing at all has been changed, unless the
    exception is the one the library's fit of the model object raised
    (then that object and the random generator are as the library left
    them). *)
Theorem fit_raise_sources (self : adapter) (x : list sample)
    (y : list label) (weights : option pyobject)
    (kwargs : gmap string pyobject) (w w' : World) (e : exn) :
  fit self x y weights kwargs w = (Raise e, w') ->
  w' = w \/
  exists (l : loc) (e0 : estimator) (X : features) (x' : lib_error)
         (e' : estimator) (g' : RNG),
    e = LibError x' /\ stacked x X /\ model self = Some l /\
    heap w !! l = Some e0 /\ est_fit e0 X y (rng w) = (Some x', e', g').
Proof.
  intros Hfit.
  destruct (fit_inv _ _ _ _ _ _ _ _ Hfit)
    as [(-> & _) | (l & e0 & X & err & e' & g' & HX & Hm & Hl & Hest & _ & Hr)];
    [now left |].
  destruct err as [x' |]; [| discriminate]. injection Hr as ->.
  right. exists l, e0, X, x', e', g'. auto.
Qed.

(** X3. Whatever its outcome, [fit] reads and writes no file, logs
    nothing, and neither creates nor drops an object. *)
Theorem fit_leaves_files_and_log (self : adapter) (x : list sample)
    (y : list label) (weights : option pyobject)
    (kwargs : gmap string pyobject) (w w' : World) (r : result adapter) :
  fit self x y weights kwargs w = (r, w') ->
  fs w' = fs w /\ log w' = log w /\ length (heap w') = length (heap w).
Proof.
  intros Hfit.
  destruct (fit_inv _ _ _ _ _ _ _ _ Hfit)
    as [(-> & _) | (l & e0 & X & err & e' & g' & _ & _ & _ & _ & -> & _)].
  - auto.
  - simpl. rewrite length_insert. auto.
Qed.

(** ** save *)

(** X4. With a file name that is given and not empty, [save] consults
    nothing of the adapter but its model: two adapters with the same
    model handle, whatever their [save_path], [load_path], mode and
    class, save alike. *)
Theorem save_explicit_name_ignores_paths (a b : adapter)
    (fname : option string) (w : World) :
  falsy fname = false ->
  model a = model b ->
  save a fname w = save b fname w.
Proof.
  intros Hf Hm. unfold save. rewrite Hf, Hm. reflexivity.
Qed.

(** X5. When the directory above the target is there, [save] first logs
    "[saving model to <path>]" and then has joblib dump the value of
    [self.model] at the target: the files are what the dump left, the
    log has that one record more even when the dump raised, and objects
    and random generator are untouched. *)
Theorem save_logs_then_dumps (self : adapter) (fname : option string)
    (w : World) (p : path) (err : option lib_error) (f' : FS) :
  save_target self fname (fs w) = Some (inr p) ->
  is_dir (parent p) (fs w) = true ->
  joblib_dump (deref (heap w) (model self)) p (fs w) = (err, f') ->
  save self fname w =
    (match err with None => Ok tt | Some x => Raise (LibError x) end,
     mkWorld (heap w) f' (rng w)
       (log w ++ [(INFO, "[saving model to " +:+ path_str p +:+ "]")])).
Proof.
  intros Ht Hd Hdump. rewrite (save_on_target _ _ _ _ Ht).
  unfold bind, is_dir_m, log_info, joblib_dump_m. rewrite Hd. simpl.
  rewrite Hdump. now destruct err.
Qed.


(** ** load and __init__ *)

(** Every way [load] can end: it logs one record, then binds
    [self.model] to a new object (a default estimator when there is no
    artifact, else the unpickled one), or to None when the artifact
    holds None, or passes joblib's exception on. *)
Lemma load_inv (self : adapter) (w w' : World) (r : result adapter) :
  load self w = (r, w') ->
  exists (lv : level) (s : string),
    (exists e : estimator,
       r = Ok (set_model self (Some (length (heap w)))) /\
       w' = add_object (add_log w lv s) e /\
       ((e = default_estimator (cls self) /\
         (load_path self = None \/
          exists p, load_path self = Some p /\ path_exists p (fs w) = false)) \/
        (exists p, load_path self = Some p /\ path_exists p (fs w) = true /\
                   joblib_load p (fs w) = inr (Some e)))) \/
    (r = Ok (set_model self None) /\ w' = add_log w lv s /\
     exists p, load_path self = Some p /\ path_exists p (fs w) = true /\
               joblib_load p (fs w) = inr None) \/
    (exists p x, r = Raise (LibError x) /\ w' = add_log w lv s /\
       load_path self = Some p /\ path_exists p (fs w) = true /\
       joblib_load p (fs w) = inl x).
Proof.
  unfold load. destruct (load_path self) as [p |] eqn:Hp.
  - unfold bind at 1. unfold exists_m.
    destruct (path_exists p (fs w)) eqn:Hex.
    + unfold bind, log_info, joblib_load_m. simpl.
      destruct (joblib_load p (fs w)) as [x | [e |]] eqn:Hload;
        intros [= <- <-]; eexists _, _.
      * right. right. exists p, x. auto.
      * left. exists e. split; [reflexivity |]. split; [reflexivity |].
        right. exists p. auto.
      * right. left. split; [reflexivity |]. split; [reflexivity |].
        exists p. auto.
    + intros [= <- <-]. eexists _, _. left. eexists.
      split; [reflexivity |]. split; [reflexivity |]. left. eauto.
  - intros [= <- <-]. eexists _, _. left. eexists.
    split; [reflexivity |]. split; [reflexivity |]. left. eauto.
Qed.


(** X8. With no [load_path], or with one at which nothing exists,
    [load] returns and what the adapter predicts from then on is what
    an estimator constructed with default arguments predicts, whatever
    model the adapter had before: a model that was fitted and not saved
    is no longer used. *)
Theorem load_without_artifact_resets (self : adapter) (w : World) :
  load_path self = None \/
  (exists p, load_path self = Some p /\ path_exists p (fs w) = false) ->
  exists (self' : adapter) (w' : World),
    load self w = (Ok self', w') /\
    forall q : features,
      call self' q w'
      = (predict_value (Some (default_estimator (cls self))) q, w').
Proof.
  intros Hno. destruct (load self w) as [r w'] eqn:Hload.
  destruct (load_inv _ _ _ _ Hload)
    as (lv & s & [(e & -> & -> & He) | [(_ & _ & p & Hp & Hex & _) | (p & x & _ & _ & Hp & Hex & _)]]).
  - eexists _, _. split; [reflexivity |]. intros q. rewrite call_spec. simpl.
    rewrite lookup_app_r by lia. rewrite Nat.sub_diag. simpl.
    destruct He as [[-> _] | (p & Hp & Hex & _)]; [reflexivity |].
    destruct Hno as [Hn | (p' & Hp' & Hex')]; congruence.
  - destruct Hno as [Hn | (p' & Hp' & Hex')]; congruence.
  - destruct Hno as [Hn | (p' & Hp' & Hex')]; congruence.
Qed.

(** X9. Handles never dangle.  An adapter whose handle is valid keeps a
    valid handle through every operation of any adapter, and the
    adapter a [load] returns has a valid handle. *)
Theorem handles_stay_valid (a : adapter) (w : World) :
  handle_valid a w ->
  (forall (self : adapter) (r : result adapter) (w' : World),
     load self w = (r, w') ->
     handle_valid a w' /\
     forall self' : adapter, r = Ok self' -> handle_valid self' w') /\
  (forall (self : adapter) (x : list sample) (y : list label)
          (weights : option pyobject) (kwargs : gmap string pyobject)
          (r : result adapter) (w' : World),
     fit self x y weights kwargs w = (r, w') -> handle_valid a w') /\
  (forall (self : adapter) (fname : option string) (r : result unit)
          (w' : World),
     save self fname w = (r, w') -> handle_valid a w') /\
  (forall (self : adapter) (q : features) (r : result predictions)
          (w' : World),
     call self q w = (r, w') -> handle_valid a w').
Proof.
  intros Ha.
  assert (Hlen : forall w' : World,
             length (heap w) <= length (heap w') -> handle_valid a w').
  { intros w' Hle l Hl. apply lookup_lt_is_Some.
    specialize (Ha l Hl). apply lookup_lt_is_Some in Ha. lia. }
  split; [| split; [| split]].
  - intros self r w' Hload.
    destruct (load_inv _ _ _ _ Hload)
      as (lv & s & [(e & -> & -> & _) | [(-> & -> & _) | (p & x & -> & -> & _)]]).
    + split.
      * apply Hlen. simpl. rewrite length_app. lia.
      * intros self' [= <-] l [= <-]. simpl. apply lookup_lt_is_Some.
        rewrite length_app. simpl. lia.
    + split; [now apply Hlen |]. intros self' [= <-] l Hl. discriminate.
    + split; [now apply Hlen |]. intros self' Hr. discriminate.
  - intros self x y weights kwargs r w' Hfit. apply Hlen.
    destruct (fit_inv _ _ _ _ _ _ _ _ Hfit)
      as [(-> & _) | (l & e0 & X & err & e' & g' & _ & _ & _ & _ & -> & _)];
      [lia | simpl; rewrite length_insert; lia].
  - intros self fname r w' Hsave. apply Hlen.
    now rewrite (save_keeps_objects self fname w w' r Hsave).
  - intros self q r w' Hcall. rewrite call_spec in Hcall.
    injection Hcall as _ <-. now apply Hlen.
Qed.

(** X10. Adapters do not disturb each other.  Let [b] have a valid
    handle; let another adapter get its model by [load] and then be
    fitted, whatever the outcome of the fit.  On every feature batch,
    [b] predicts after that what it predicted before. *)
Theorem fit_of_loaded_adapter_isolated (a a' b : adapter) (w w1 w2 : World)
    (x : list sample) (y : list label) (weights : option pyobject)
    (kwargs : gmap string pyobject) (r : result adapter) :
  handle_valid b w ->
  load a w = (Ok a', w1) ->
  fit a' x y weights kwargs w1 = (r, w2) ->
  forall q : features, (call b q w2).1 = (call b q w).1.
Proof.
  intros Hb Hload Hfit q. rewrite !call_spec. simpl. f_equal.
  destruct (model b) as [lb |] eqn:Hmb; [| reflexivity]. simpl.
  specialize (Hb lb Hmb). apply lookup_lt_is_Some in Hb.
  destruct (fit_same_handle a' x y weights kwargs w1 w2 r Hfit) as [_ Hother].
  destruct (load_inv _ _ _ _ Hload)
    as (lv & s & [(e & [= ->] & -> & _) | [([= ->] & -> & _) | (p & x' & ? & _)]]);
    [| | discriminate].
  - rewrite Hother by (simpl; intros [= <-]; lia).
    simpl. now rewrite lookup_app_l.
  - now rewrite Hother by (simpl; discriminate).
Qed.

(** X11. Construction, when it returns, gives an adapter of the class
    asked for, with the paths and mode the base class's constructor set
    and a valid model handle; after the base class's constructor it has
    changed no existing object. *)
Theorem init_outcome
    (Estimator_init : option pyobject -> option pyobject -> option pyobject ->
                      M base_attrs)
    (c : variant) (kwargs : gmap string pyobject) (w w' : World)
    (self : adapter) :
  init Estimator_init c kwargs w = (Ok self, w') ->
  exists (b : base_attrs) (w1 : World),
    Estimator_init (kwargs !! "save_path") (kwargs !! "load_path")
      (kwargs !! "mode") w = (Ok b, w1) /\
    cls self = c /\ save_path self = base_save_path b /\
    load_path self = base_load_path b /\ mode self = base_mode b /\
    handle_valid self w' /\ objects_preserved w1 w'.
Proof.
  unfold init. intros Hinit.
  destruct (bind_inv_ok _ _ _ _ _ Hinit) as (b & w1 & Hb & Hload).
  exists b, w1. split; [exact Hb |].
  destruct (load_inv _ _ _ _ Hload)
    as (lv & s & [(e & [= ->] & -> & _) | [([= ->] & -> & _) | (p & x & ? & _)]]);
    [| | discriminate]; simpl; repeat (split; [reflexivity |]); split.
  - intros l [= <-]. simpl. apply lookup_lt_is_Some.
    rewrite length_app. simpl. lia.
  - now apply objects_preserved_add.
  - intros l Hl. discriminate.
  - now intros l e.
Qed.

(** X12. Saving does not alter any model: whatever the outcome of a
    [save], every adapter predicts after it, on every feature batch,
    what it predicted before. *)
Theorem save_keeps_predictions (self : adapter) (fname : option string)
    (w w' : World) (r : result unit) :
  save self fname w = (r, w') ->
  forall (a : adapter) (q : features), (call a q w').1 = (call a q w).1.
Proof.
  intros Hsave a q. rewrite !call_spec. simpl.
  now rewrite (save_keeps_objects self fname w w' r Hsave).
Qed.


End Composition.

(** * The reference platform: runs of the methods *)

Section Runs.
Import Ref.

Lemma entry_written (p : list string) (n : node) (f : tree) :
  entry p ((p, n) :: f) = Some n.
Proof. simpl. now rewrite bool_decide_eq_true_2. Qed.

(** The reference joblib unpickles what it pickled. *)
#[global] Instance ref_joblib_round_trip : @JoblibRoundTrip Ref.platform.
Proof.
  split; intros v p f f' Hdump;
    change (ref_dump v p f = (None, f')) in Hdump; unfold ref_dump in Hdump;
    destruct (ref_is_dir p f); simplify_eq.
  - change (ref_exists p ((p, File v) :: f) = true).
    unfold ref_exists. now rewrite entry_written.
  - exists v. split; [| easy].
    change (ref_load p ((p, File v) :: f) = inr v).
    unfold ref_load. now rewrite entry_written.
Qed.

(** Fitting the LogReg adapter on the four dense samples. *)
Lemma fit_run :
  fit adapter0 batch labels None ∅ world1 = (Ok adapter0, world2).
Proof.
  apply (fit_stacks_by_first_sample (P := Ref.platform) adapter0
           (SNd [[1; 0]]%Z) (tail batch) labels None ∅ world1
           (XDense [[1; 0]; [0; 1]; [1; 1]; [0; 0]]%Z) 0
           (mkEst LogReg None) fitted 0).
  - right. exists [[1; 0]]%Z, [[1; 0]; [0; 1]; [1; 1]; [0; 0]]%Z.
    repeat split; reflexivity.
  - reflexivity.
  - reflexivity.
  - reflexivity.
Defined.

(** Saving to a path under a directory that does not exist. *)
Lemma save_astray_run :
  save adapter_astray None world2
  = (Raise (ConfigError "Provided save path is incorrect!"), world2).
Proof.
  apply (save_missing_parent (P := Ref.platform) adapter_astray None world2
           ["nowhere"; "model.pkl"]).
  - reflexivity.
  - vm_compute. reflexivity.
Defined.

(** Saving with no file name from an adapter with no [save_path]. *)
Lemma save_pathless_run :
  save adapter0 (Some EmptyString) world2
  = (Raise (AttributeError "'NoneType' object has no attribute 'parent'"), world2).
Proof.
  apply (save_without_any_path (P := Ref.platform) adapter0 (Some EmptyString) world2).
  - reflexivity.
  - reflexivity.
Defined.

(** The three cases of [load]: no [load_path]; a [load_path] with
    nothing there; a [load_path] with the saved artifact. *)
Lemma load_runs :
  load (mkAdapter LogReg None None None None) world0 = (Ok adapter0, world1) /\
  load adapter_astray world0
  = (Ok adapter_astray,
     mkWorld [mkEst Svm None] work_dir 0
       [(WARNING, "initializing `SVC` from scratch")]) /\
  load adapter_loading world3
  = (Ok (set_model adapter_loading (Some 1)),
     mkWorld [fitted; fitted] (fs world3) 0
       (log world3 ++ [(INFO, "[initializing `RandomForest` from saved]")])).
Proof.
  split; [| split].
  - destruct (load_cases (P := Ref.platform)
                (mkAdapter LogReg None None None None) world0) as (H & _ & _).
    exact (H eq_refl).
  - destruct (load_cases (P := Ref.platform) adapter_astray world0)
      as (_ & H & _).
    exact (H ["nowhere"; "model.pkl"] eq_refl eq_refl).
  - destruct (load_cases (P := Ref.platform) adapter_loading world3)
      as (_ & _ & H).
    exact (H ["work"; "model.pkl"] eq_refl eq_refl).
Defined.


(** Saving the fitted LogReg model as [model.pkl], then constructing an
    adapter that loads it. *)
Lemma round_trip_run :
  exists (self' : adapter) (w3 : World),
    init Ref.Estimator_init RandomForest {[ "load_path" := "model.pkl" ]} world3
    = (Ok self', w3) /\
    forall q : features, (call self' q w3).1 = (call adapter0 q world2).1.
Proof.
  apply (save_then_construct_round_trip (P := Ref.platform) Ref.Estimator_init
           adapter0 (Some "model.pkl") world2 world3 world3
           ["work"; "model.pkl"] RandomForest {[ "load_path" := "model.pkl" ]}
           (mkBase (P := Ref.platform) None (Some ["work"; "model.pkl"]) None)).
  - reflexivity.
  - vm_compute. reflexivity.
  - vm_compute. reflexivity.
  - reflexivity.
  - split; reflexivity.
Defined.

(** The fit of [fit_run], evaluated. *)
Lemma ref_fit_eval :
  fit adapter0 batch labels None ∅ world1 = (Ok adapter0, world2).
Proof. vm_compute. reflexivity. Qed.

(** C9, as stated, fails: this [fit] returns with [self.model] still
    referring to object 0, which existed before, and the state of that
    object is no longer what it was: it has been changed in place, not
    replaced. *)
Lemma fit_changes_model_in_place :
  fit adapter0 batch labels None ∅ world1 = (Ok adapter0, world2) /\
  model adapter0 = Some 0 /\
  heap world1 !! 0 = Some (mkEst LogReg None) /\
  heap world2 !! 0 = Some fitted /\
  ~ objects_preserved world1 world2.
Proof.
  split; [exact ref_fit_eval |]. repeat split.
  intros Hkeep. specialize (Hkeep 0 (mkEst LogReg None) eq_refl).
  discriminate Hkeep.
Qed.

(** The same [fit] and a [load], against [model_handle_discipline]. *)
Lemma handle_discipline_run :
  (forall l : loc, Some 0 <> Some l -> heap world2 !! l = heap world1 !! l) /\
  objects_preserved world3 (load adapter_loading world3).2.
Proof.
  destruct (model_handle_discipline (P := Ref.platform))
    as (Hload & Hfit & _ & _).
  split.
  - exact (proj2 (Hfit adapter0 batch labels None ∅ world1 world2
                    (Ok adapter0) ref_fit_eval)).
  - exact (proj1 (Hload adapter_loading world3 _ _
                    (surjective_pairing (load adapter_loading world3)))).
Defined.

End Runs.

(** * The reference platform: runs of composed methods *)

Section MoreRuns.
Import Ref.


Lemma ref_mixed_eval :
  fit adapter0 mixed_batch labels None ∅ world1
  = (Raise (LibError "ValueError: blocks of different kinds"), world1).
Proof. vm_compute. reflexivity. Qed.

Lemma ref_save_eval :
  save adapter0 (Some "model.pkl") world2 = (Ok tt, world3).
Proof. vm_compute. reflexivity. Qed.


Lemma ref_handle_valid : handle_valid adapter0 world2.
Proof. intros l [= <-]. now eexists. Qed.

(** After the fit of [ref_fit_eval], calls predict with [fitted]. *)
Lemma fit_then_call_run :
  exists (l : loc) (e : estimator) (X : features) (e' : estimator) (g' : RNG),
    model adapter0 = Some l /\ heap world1 !! l = Some e /\ stacked batch X /\
    est_fit e X labels (rng world1) = (None, e', g') /\
    forall q : features,
      call adapter0 q world2 = (predict_value (Some e') q, world2).
Proof.
  exact (fit_then_call_predicts (P := Ref.platform) adapter0 adapter0 batch
           labels None ∅ world1 world2 ref_fit_eval).
Defined.

(** A fit on a mixed batch raises in the stacking; nothing changed. *)
Lemma fit_mixed_run :
  world1 = world1 \/
  exists (l : loc) (e0 : estimator) (X : features) (x' : lib_error)
         (e' : estimator) (g' : RNG),
    LibError "ValueError: blocks of different kinds" = LibError x' /\
    stacked mixed_batch X /\ model adapter0 = Some l /\
    heap world1 !! l = Some e0 /\
    est_fit e0 X labels (rng world1) = (Some x', e', g').
Proof.
  exact (fit_raise_sources (P := Ref.platform) adapter0 mixed_batch labels
           None ∅ world1 world1 _ ref_mixed_eval).
Defined.

Lemma fit_frame_run :
  fs world2 = fs world1 /\ log world2 = log world1 /\
  length (heap world2) = length (heap world1).
Proof.
  exact (fit_leaves_files_and_log (P := Ref.platform) adapter0 batch labels
           None ∅ world1 world2 _ ref_fit_eval).
Defined.

(** Two adapters with the same model handle and different paths. *)
Lemma save_named_run :
  save adapter0 (Some "model.pkl") world2
  = save adapter_astray (Some "model.pkl") world2.
Proof.
  apply (save_explicit_name_ignores_paths (P := Ref.platform) adapter0
           adapter_astray (Some "model.pkl") world2).
  - reflexivity.
  - reflexivity.
Defined.

Lemma save_run :
  save adapter0 (Some "model.pkl") world2 = (Ok tt, world3).
Proof.
  apply (save_logs_then_dumps (P := Ref.platform) adapter0 (Some "model.pkl")
           world2 ["work"; "model.pkl"] None (fs world3)).
  - reflexivity.
  - reflexivity.
  - reflexivity.
Defined.



(** The fitted adapter, which has no [load_path], loads again. *)
Lemma load_reset_run :
  exists (self' : adapter) (w' : World),
    load adapter0 world2 = (Ok self', w') /\
    forall q : features,
      call self' q w' = (predict_value (Some (mkEst LogReg None)) q, w').
Proof.
  apply (load_without_artifact_resets (P := Ref.platform) adapter0 world2).
  left. reflexivity.
Defined.

Lemma handles_run :
  handle_valid adapter0 (load adapter_loading world2).2 /\
  handle_valid adapter0 (fit adapter0 batch' labels' None ∅ world2).2.
Proof.
  destruct (handles_stay_valid (P := Ref.platform) adapter0 world2
              ref_handle_valid) as (Hload & Hfit & _ & _).
  split.
  - exact (proj1 (Hload adapter_loading _ _
                    (surjective_pairing (load adapter_loading world2)))).
  - exact (Hfit adapter0 batch' labels' None ∅ _ _
             (surjective_pairing (fit adapter0 batch' labels' None ∅ world2))).
Defined.

(** A second adapter is constructed and fitted; the first one predicts
    as before. *)
Lemma isolation_run :
  let b := mkAdapter Svm None None None None in
  let a' := set_model b (Some 1) in
  let w1 := (load b world2).2 in
  (call adapter0 (XDense [[1; 1]; [0; 1]]%Z)
     (fit a' batch' labels' None ∅ w1).2).1
  = (call adapter0 (XDense [[1; 1]; [0; 1]]%Z) world2).1.
Proof.
  apply (fit_of_loaded_adapter_isolated (P := Ref.platform)
           (mkAdapter Svm None None None None)
           (set_model (mkAdapter Svm None None None None) (Some 1))
           adapter0 world2 (load (mkAdapter Svm None None None None) world2).2
           (fit (set_model (mkAdapter Svm None None None None) (Some 1))
              batch' labels' None ∅
              (load (mkAdapter Svm None None None None) world2).2).2
           batch' labels' None ∅
           (fit (set_model (mkAdapter Svm None None None None) (Some 1))
              batch' labels' None ∅
              (load (mkAdapter Svm None None None None) world2).2).1).
  - exact ref_handle_valid.
  - reflexivity.
  - apply surjective_pairing.
Defined.

Lemma init_outcome_run :
  exists (b : base_attrs) (w1 : World),
    Ref.Estimator_init None None None world0 = (Ok b, w1) /\
    cls adapter0 = LogReg /\ save_path adapter0 = base_save_path b /\
    load_path adapter0 = base_load_path b /\ mode adapter0 = base_mode b /\
    handle_valid adapter0 world1 /\ objects_preserved w1 world1.
Proof.
  exact (init_outcome (P := Ref.platform) Ref.Estimator_init LogReg ∅ world0
           world1 adapter0 eq_refl).
Defined.

Lemma save_keeps_predictions_run :
  (call adapter0 (XDense [[1; 1]; [0; 1]]%Z) world3).1
  = (call adapter0 (XDense [[1; 1]; [0; 1]]%Z) world2).1.
Proof.
  exact (save_keeps_predictions (P := Ref.platform) adapter0
           (Some "model.pkl") world2 world3 _ ref_save_eval adapter0
           (XDense [[1; 1]; [0; 1]]%Z)).
Defined.


End MoreRuns.
